(** * sarama: the client configuration and its validation gate

    A shallow embedding of [config.go]: the [Config] struct, the constructor
    [NewConfig] and the method [Config.Validate], followed by the properties
    of the two functions.

    Go's integers are modelled as [Z].  [Validate] only compares fields with
    constants and with each other and takes one remainder, so no operation
    of the code can overflow; the machine ranges of the field types are kept
    apart in [wf_Config].  [time.Duration] is a count of nanoseconds. *)

From Stdlib Require Import ZArith String List Bool Lia.
Import ListNotations.

Open Scope string_scope.
Open Scope Z_scope.

(** ** Package [time] *)

Module time.
Definition Duration := Z.
Definition Nanosecond : Duration := 1.
Definition Microsecond : Duration := 1000 * Nanosecond.
Definition Millisecond : Duration := 1000 * Microsecond.
Definition Second : Duration := 1000 * Millisecond.
Definition Minute : Duration := 60 * Second.
End time.

(** ** Types declared elsewhere in the package *)

(** Modelled from the spec: [ConfigurationError] is declared outside
    [config.go]; it is the one error kind and carries only the message. *)
Definition ConfigurationError := string.

(** A Go [error] result: [None] is [nil]. *)
Definition error := option ConfigurationError.

(** Modelled from the spec: the type [RequiredAcks] and its constants are
    declared outside [config.go]; a signed small integer with -1 = all,
    0 = none, 1 = local. *)
Definition RequiredAcks := Z.
Definition NoResponse : RequiredAcks := 0.
Definition WaitForLocal : RequiredAcks := 1.
Definition WaitForAll : RequiredAcks := -1.

(** Modelled from the spec: [CompressionCodec] is declared outside
    [config.go]; an enumerated code whose zero value is no compression. *)
Definition CompressionCodec := Z.

(** A value of the request-size ceiling to run the examples with: 100 MiB
    less 10 KiB. *)
Definition example_ceiling : Z := 100 * 1024 * 1024 - 10 * 1024.

Section Sarama.

(** [PartitionerConstructor] is a function type declared outside
    [config.go], and [NewHashPartitioner] one of its inhabitants; [Validate]
    only tests a value of it against [nil].  A field of that type is an
    [option]: [None] is [nil]. *)
Variable PartitionerConstructor : Type.
Variable NewHashPartitioner : PartitionerConstructor.

(** What the call [forceFlushThreshold()] returns.  The function is defined
    outside [config.go]; nothing [Validate] does between its two calls can
    change the result. *)
Variable forceFlushThreshold : Z.

(** ** The [Config] struct

    The anonymous nested structs become records of their own; a field keeps
    its name, prefixed by its path. *)

Record Config_Net := {
  Net_MaxOpenRequests : Z;
  Net_DialTimeout : time.Duration;
  Net_ReadTimeout : time.Duration;
  Net_WriteTimeout : time.Duration;
  Net_KeepAlive : time.Duration
}.

Record Config_Metadata_Retry := {
  Metadata_Retry_Max : Z;
  Metadata_Retry_Backoff : time.Duration
}.

Record Config_Metadata := {
  Metadata_Retry : Config_Metadata_Retry;
  Metadata_RefreshFrequency : time.Duration
}.

Record Config_Producer_Return := {
  Producer_Return_Successes : bool;
  Producer_Return_Errors : bool
}.

Record Config_Producer_Flush := {
  Producer_Flush_Bytes : Z;
  Producer_Flush_Messages : Z;
  Producer_Flush_Frequency : time.Duration;
  Producer_Flush_MaxMessages : Z
}.

Record Config_Producer_Retry := {
  Producer_Retry_Max : Z;
  Producer_Retry_Backoff : time.Duration
}.

Record Config_Producer := {
  Producer_MaxMessageBytes : Z;
  Producer_RequiredAcks : RequiredAcks;
  Producer_Timeout : time.Duration;
  Producer_Compression : CompressionCodec;
  Producer_Partitioner : option PartitionerConstructor;
  Producer_Return : Config_Producer_Return;
  Producer_Flush : Config_Producer_Flush;
  Producer_Retry : Config_Producer_Retry
}.

Record Config_Consumer_Retry := {
  Consumer_Retry_Backoff : time.Duration
}.

Record Config_Consumer_Fetch := {
  Consumer_Fetch_Min : Z;
  Consumer_Fetch_Default : Z;
  Consumer_Fetch_Max : Z
}.

Record Config_Consumer_Return := {
  Consumer_Return_Errors : bool
}.

Record Config_Consumer := {
  Consumer_Retry : Config_Consumer_Retry;
  Consumer_Fetch : Config_Consumer_Fetch;
  Consumer_MaxWaitTime : time.Duration;
  Consumer_Return : Config_Consumer_Return
}.

Record Config := {
  Net : Config_Net;
  Metadata : Config_Metadata;
  Producer : Config_Producer;
  Consumer : Config_Consumer;
  ClientID : string;
  ChannelBufferSize : Z
}.

(** The value of [Config{}]: every field at the zero value of its type. *)
Definition Config_zero : Config :=
  {| Net := {| Net_MaxOpenRequests := 0; Net_DialTimeout := 0;
               Net_ReadTimeout := 0; Net_WriteTimeout := 0;
               Net_KeepAlive := 0 |};
     Metadata := {| Metadata_Retry := {| Metadata_Retry_Max := 0;
                                         Metadata_Retry_Backoff := 0 |};
                    Metadata_RefreshFrequency := 0 |};
     Producer := {| Producer_MaxMessageBytes := 0;
                    Producer_RequiredAcks := 0;
                    Producer_Timeout := 0;
                    Producer_Compression := 0;
                    Producer_Partitioner := None;
                    Producer_Return := {| Producer_Return_Successes := false;
                                          Producer_Return_Errors := false |};
                    Producer_Flush := {| Producer_Flush_Bytes := 0;
                                         Producer_Flush_Messages := 0;
                                         Producer_Flush_Frequency := 0;
                                         Producer_Flush_MaxMessages := 0 |};
                    Producer_Retry := {| Producer_Retry_Max := 0;
                                         Producer_Retry_Backoff := 0 |} |};
     Consumer := {| Consumer_Retry := {| Consumer_Retry_Backoff := 0 |};
                    Consumer_Fetch := {| Consumer_Fetch_Min := 0;
                                         Consumer_Fetch_Default := 0;
                                         Consumer_Fetch_Max := 0 |};
                    Consumer_MaxWaitTime := 0;
                    Consumer_Return := {| Consumer_Return_Errors := false |} |};
     ClientID := "";
     ChannelBufferSize := 0 |}.

(** ** Field assignment

    [with_X f c] is [c] after its sub-struct [X] is replaced by [f] of it;
    [set_P v c] is [c] after the assignment [c.P = v]. *)

Definition with_Net (f : Config_Net -> Config_Net) (c : Config) : Config :=
  {| Net := f (Net c); Metadata := Metadata c; Producer := Producer c;
     Consumer := Consumer c; ClientID := ClientID c;
     ChannelBufferSize := ChannelBufferSize c |}.

Definition with_Metadata (f : Config_Metadata -> Config_Metadata) (c : Config) : Config :=
  {| Net := Net c; Metadata := f (Metadata c); Producer := Producer c;
     Consumer := Consumer c; ClientID := ClientID c;
     ChannelBufferSize := ChannelBufferSize c |}.

Definition with_Producer (f : Config_Producer -> Config_Producer) (c : Config) : Config :=
  {| Net := Net c; Metadata := Metadata c; Producer := f (Producer c);
     Consumer := Consumer c; ClientID := ClientID c;
     ChannelBufferSize := ChannelBufferSize c |}.

Definition with_Consumer (f : Config_Consumer -> Config_Consumer) (c : Config) : Config :=
  {| Net := Net c; Metadata := Metadata c; Producer := Producer c;
     Consumer := f (Consumer c); ClientID := ClientID c;
     ChannelBufferSize := ChannelBufferSize c |}.

Definition set_ClientID (v : string) (c : Config) : Config :=
  {| Net := Net c; Metadata := Metadata c; Producer := Producer c;
     Consumer := Consumer c; ClientID := v;
     ChannelBufferSize := ChannelBufferSize c |}.

Definition set_ChannelBufferSize (v : Z) (c : Config) : Config :=
  {| Net := Net c; Metadata := Metadata c; Producer := Producer c;
     Consumer := Consumer c; ClientID := ClientID c;
     ChannelBufferSize := v |}.

Definition set_Net_MaxOpenRequests (v : Z) : Config -> Config :=
  with_Net (fun n =>
    {| Net_MaxOpenRequests := v; Net_DialTimeout := Net_DialTimeout n;
       Net_ReadTimeout := Net_ReadTimeout n;
       Net_WriteTimeout := Net_WriteTimeout n;
       Net_KeepAlive := Net_KeepAlive n |}).

Definition set_Net_DialTimeout (v : time.Duration) : Config -> Config :=
  with_Net (fun n =>
    {| Net_MaxOpenRequests := Net_MaxOpenRequests n; Net_DialTimeout := v;
       Net_ReadTimeout := Net_ReadTimeout n;
       Net_WriteTimeout := Net_WriteTimeout n;
       Net_KeepAlive := Net_KeepAlive n |}).

Definition set_Net_ReadTimeout (v : time.Duration) : Config -> Config :=
  with_Net (fun n =>
    {| Net_MaxOpenRequests := Net_MaxOpenRequests n;
       Net_DialTimeout := Net_DialTimeout n; Net_ReadTimeout := v;
       Net_WriteTimeout := Net_WriteTimeout n;
       Net_KeepAlive := Net_KeepAlive n |}).

Definition set_Net_WriteTimeout (v : time.Duration) : Config -> Config :=
  with_Net (fun n =>
    {| Net_MaxOpenRequests := Net_MaxOpenRequests n;
       Net_DialTimeout := Net_DialTimeout n;
       Net_ReadTimeout := Net_ReadTimeout n; Net_WriteTimeout := v;
       Net_KeepAlive := Net_KeepAlive n |}).

Definition set_Net_KeepAlive (v : time.Duration) : Config -> Config :=
  with_Net (fun n =>
    {| Net_MaxOpenRequests := Net_MaxOpenRequests n;
       Net_DialTimeout := Net_DialTimeout n;
       Net_ReadTimeout := Net_ReadTimeout n;
       Net_WriteTimeout := Net_WriteTimeout n; Net_KeepAlive := v |}).

Definition with_Metadata_Retry (f : Config_Metadata_Retry -> Config_Metadata_Retry)
  : Config -> Config :=
  with_Metadata (fun m =>
    {| Metadata_Retry := f (Metadata_Retry m);
       Metadata_RefreshFrequency := Metadata_RefreshFrequency m |}).

Definition set_Metadata_Retry_Max (v : Z) : Config -> Config :=
  with_Metadata_Retry (fun r =>
    {| Metadata_Retry_Max := v;
       Metadata_Retry_Backoff := Metadata_Retry_Backoff r |}).

Definition set_Metadata_Retry_Backoff (v : time.Duration) : Config -> Config :=
  with_Metadata_Retry (fun r =>
    {| Metadata_Retry_Max := Metadata_Retry_Max r;
       Metadata_Retry_Backoff := v |}).

Definition set_Metadata_RefreshFrequency (v : time.Duration) : Config -> Config :=
  with_Metadata (fun m =>
    {| Metadata_Retry := Metadata_Retry m; Metadata_RefreshFrequency := v |}).

Definition set_Producer_MaxMessageBytes (v : Z) : Config -> Config :=
  with_Producer (fun p =>
    {| Producer_MaxMessageBytes := v;
       Producer_RequiredAcks := Producer_RequiredAcks p;
       Producer_Timeout := Producer_Timeout p;
       Producer_Compression := Producer_Compression p;
       Producer_Partitioner := Producer_Partitioner p;
       Producer_Return := Producer_Return p;
       Producer_Flush := Producer_Flush p;
       Producer_Retry := Producer_Retry p |}).

Definition set_Producer_RequiredAcks (v : RequiredAcks) : Config -> Config :=
  with_Producer (fun p =>
    {| Producer_MaxMessageBytes := Producer_MaxMessageBytes p;
       Producer_RequiredAcks := v;
       Producer_Timeout := Producer_Timeout p;
       Producer_Compression := Producer_Compression p;
       Producer_Partitioner := Producer_Partitioner p;
       Producer_Return := Producer_Return p;
       Producer_Flush := Producer_Flush p;
       Producer_Retry := Producer_Retry p |}).

Definition set_Producer_Timeout (v : time.Duration) : Config -> Config :=
  with_Producer (fun p =>
    {| Producer_MaxMessageBytes := Producer_MaxMessageBytes p;
       Producer_RequiredAcks := Producer_RequiredAcks p;
       Producer_Timeout := v;
       Producer_Compression := Producer_Compression p;
       Producer_Partitioner := Producer_Partitioner p;
       Producer_Return := Producer_Return p;
       Producer_Flush := Producer_Flush p;
       Producer_Retry := Producer_Retry p |}).

Definition set_Producer_Compression (v : CompressionCodec) : Config -> Config :=
  with_Producer (fun p =>
    {| Producer_MaxMessageBytes := Producer_MaxMessageBytes p;
       Producer_RequiredAcks := Producer_RequiredAcks p;
       Producer_Timeout := Producer_Timeout p;
       Producer_Compression := v;
       Producer_Partitioner := Producer_Partitioner p;
       Producer_Return := Producer_Return p;
       Producer_Flush := Producer_Flush p;
       Producer_Retry := Producer_Retry p |}).

Definition set_Producer_Partitioner (v : option PartitionerConstructor)
  : Config -> Config :=
  with_Producer (fun p =>
    {| Producer_MaxMessageBytes := Producer_MaxMessageBytes p;
       Producer_RequiredAcks := Producer_RequiredAcks p;
       Producer_Timeout := Producer_Timeout p;
       Producer_Compression := Producer_Compression p;
       Producer_Partitioner := v;
       Producer_Return := Producer_Return p;
       Producer_Flush := Producer_Flush p;
       Producer_Retry := Producer_Retry p |}).

Definition with_Producer_Return (f : Config_Producer_Return -> Config_Producer_Return)
  : Config -> Config :=
  with_Producer (fun p =>
    {| Producer_MaxMessageBytes := Producer_MaxMessageBytes p;
       Producer_RequiredAcks := Producer_RequiredAcks p;
       Producer_Timeout := Producer_Timeout p;
       Producer_Compression := Producer_Compression p;
       Producer_Partitioner := Producer_Partitioner p;
       Producer_Return := f (Producer_Return p);
       Producer_Flush := Producer_Flush p;
       Producer_Retry := Producer_Retry p |}).

Definition with_Producer_Flush (f : Config_Producer_Flush -> Config_Producer_Flush)
  : Config -> Config :=
  with_Producer (fun p =>
    {| Producer_MaxMessageBytes := Producer_MaxMessageBytes p;
       Producer_RequiredAcks := Producer_RequiredAcks p;
       Producer_Timeout := Producer_Timeout p;
       Producer_Compression := Producer_Compression p;
       Producer_Partitioner := Producer_Partitioner p;
       Producer_Return := Producer_Return p;
       Producer_Flush := f (Producer_Flush p);
       Producer_Retry := Producer_Retry p |}).

Definition with_Producer_Retry (f : Config_Producer_Retry -> Config_Producer_Retry)
  : Config -> Config :=
  with_Producer (fun p =>
    {| Producer_MaxMessageBytes := Producer_MaxMessageBytes p;
       Producer_RequiredAcks := Producer_RequiredAcks p;
       Producer_Timeout := Producer_Timeout p;
       Producer_Compression := Producer_Compression p;
       Producer_Partitioner := Producer_Partitioner p;
       Producer_Return := Producer_Return p;
       Producer_Flush := Producer_Flush p;
       Producer_Retry := f (Producer_Retry p) |}).

Definition set_Producer_Return_Successes (v : bool) : Config -> Config :=
  with_Producer_Return (fun r =>
    {| Producer_Return_Successes := v;
       Producer_Return_Errors := Producer_Return_Errors r |}).

Definition set_Producer_Return_Errors (v : bool) : Config -> Config :=
  with_Producer_Return (fun r =>
    {| Producer_Return_Successes := Producer_Return_Successes r;
       Producer_Return_Errors := v |}).

Definition set_Producer_Flush_Bytes (v : Z) : Config -> Config :=
  with_Producer_Flush (fun f =>
    {| Producer_Flush_Bytes := v;
       Producer_Flush_Messages := Producer_Flush_Messages f;
       Producer_Flush_Frequency := Producer_Flush_Frequency f;
       Producer_Flush_MaxMessages := Producer_Flush_MaxMessages f |}).

Definition set_Producer_Flush_Messages (v : Z) : Config -> Config :=
  with_Producer_Flush (fun f =>
    {| Producer_Flush_Bytes := Producer_Flush_Bytes f;
       Producer_Flush_Messages := v;
       Producer_Flush_Frequency := Producer_Flush_Frequency f;
       Producer_Flush_MaxMessages := Producer_Flush_MaxMessages f |}).

Definition set_Producer_Flush_Frequency (v : time.Duration) : Config -> Config :=
  with_Producer_Flush (fun f =>
    {| Producer_Flush_Bytes := Producer_Flush_Bytes f;
       Producer_Flush_Messages := Producer_Flush_Messages f;
       Producer_Flush_Frequency := v;
       Producer_Flush_MaxMessages := Producer_Flush_MaxMessages f |}).

Definition set_Producer_Flush_MaxMessages (v : Z) : Config -> Config :=
  with_Producer_Flush (fun f =>
    {| Producer_Flush_Bytes := Producer_Flush_Bytes f;
       Producer_Flush_Messages := Producer_Flush_Messages f;
       Producer_Flush_Frequency := Producer_Flush_Frequency f;
       Producer_Flush_MaxMessages := v |}).

Definition set_Producer_Retry_Max (v : Z) : Config -> Config :=
  with_Producer_Retry (fun r =>
    {| Producer_Retry_Max := v;
       Producer_Retry_Backoff := Producer_Retry_Backoff r |}).

Definition set_Producer_Retry_Backoff (v : time.Duration) : Config -> Config :=
  with_Producer_Retry (fun r =>
    {| Producer_Retry_Max := Producer_Retry_Max r;
       Producer_Retry_Backoff := v |}).

Definition set_Consumer_Retry_Backoff (v : time.Duration) : Config -> Config :=
  with_Consumer (fun k =>
    {| Consumer_Retry := {| Consumer_Retry_Backoff := v |};
       Consumer_Fetch := Consumer_Fetch k;
       Consumer_MaxWaitTime := Consumer_MaxWaitTime k;
       Consumer_Return := Consumer_Return k |}).

Definition with_Consumer_Fetch (f : Config_Consumer_Fetch -> Config_Consumer_Fetch)
  : Config -> Config :=
  with_Consumer (fun k =>
    {| Consumer_Retry := Consumer_Retry k;
       Consumer_Fetch := f (Consumer_Fetch k);
       Consumer_MaxWaitTime := Consumer_MaxWaitTime k;
       Consumer_Return := Consumer_Return k |}).

Definition set_Consumer_Fetch_Min (v : Z) : Config -> Config :=
  with_Consumer_Fetch (fun f =>
    {| Consumer_Fetch_Min := v;
       Consumer_Fetch_Default := Consumer_Fetch_Default f;
       Consumer_Fetch_Max := Consumer_Fetch_Max f |}).

Definition set_Consumer_Fetch_Default (v : Z) : Config -> Config :=
  with_Consumer_Fetch (fun f =>
    {| Consumer_Fetch_Min := Consumer_Fetch_Min f;
       Consumer_Fetch_Default := v;
       Consumer_Fetch_Max := Consumer_Fetch_Max f |}).

Definition set_Consumer_Fetch_Max (v : Z) : Config -> Config :=
  with_Consumer_Fetch (fun f =>
    {| Consumer_Fetch_Min := Consumer_Fetch_Min f;
       Consumer_Fetch_Default := Consumer_Fetch_Default f;
       Consumer_Fetch_Max := v |}).

Definition set_Consumer_MaxWaitTime (v : time.Duration) : Config -> Config :=
  with_Consumer (fun k =>
    {| Consumer_Retry := Consumer_Retry k;
       Consumer_Fetch := Consumer_Fetch k;
       Consumer_MaxWaitTime := v;
       Consumer_Return := Consumer_Return k |}).

Definition set_Consumer_Return_Errors (v : bool) : Config -> Config :=
  with_Consumer (fun k =>
    {| Consumer_Retry := Consumer_Retry k;
       Consumer_Fetch := Consumer_Fetch k;
       Consumer_MaxWaitTime := Consumer_MaxWaitTime k;
       Consumer_Return := {| Consumer_Return_Errors := v |} |}).

(** ** [NewConfig]

    [c := &Config{}] followed by the assignments of the body, in their
    order.  A field the body does not assign keeps its zero value. *)
Definition NewConfig : Config :=
  let c := Config_zero in

  let c := set_Net_MaxOpenRequests 5 c in
  let c := set_Net_DialTimeout (30 * time.Second) c in
  let c := set_Net_ReadTimeout (30 * time.Second) c in
  let c := set_Net_WriteTimeout (30 * time.Second) c in

  let c := set_Metadata_Retry_Max 3 c in
  let c := set_Metadata_Retry_Backoff (250 * time.Millisecond) c in
  let c := set_Metadata_RefreshFrequency (10 * time.Minute) c in

  let c := set_Producer_MaxMessageBytes 1000000 c in
  let c := set_Producer_RequiredAcks WaitForLocal c in
  let c := set_Producer_Timeout (10 * time.Second) c in
  let c := set_Producer_Partitioner (Some NewHashPartitioner) c in
  let c := set_Producer_Retry_Max 3 c in
  let c := set_Producer_Retry_Backoff (100 * time.Millisecond) c in
  let c := set_Producer_Return_Errors true c in

  let c := set_Consumer_Fetch_Min 1 c in
  let c := set_Consumer_Fetch_Default 32768 c in
  let c := set_Consumer_Retry_Backoff (2 * time.Second) c in
  let c := set_Consumer_MaxWaitTime (250 * time.Millisecond) c in
  let c := set_Consumer_Return_Errors false c in

  let c := set_ChannelBufferSize 256 c in

  c.

(** ** The state [Validate] runs in

    [Validate] is a method on [*Config] that writes to the package's
    [Logger].  The state holds the struct the receiver points to and the
    lines the logger has been given, oldest first. *)

Record World := {
  w_config : Config;
  w_Logger : list string
}.

Definition M (A : Type) : Type := World -> A * World.

Definition ret {A : Type} (a : A) : M A := fun w => (a, w).

Definition bind {A B : Type} (m : M A) (k : A -> M B) : M B :=
  fun w => let (a, w') := m w in k a w'.

Notation "x <- m ;; k" := (bind m (fun x => k))
  (at level 61, m at next level, right associativity).
Notation "m ;; k" := (bind m (fun _ => k))
  (at level 61, right associativity).

(** Reading through the receiver [c]. *)
Definition receiver : M Config := fun w => (w_config w, w).

(** [Logger.Println(line)].  Modelled from the spec: the package's [Logger]
    is declared outside [config.go]; it is a sink that accepts plain text
    lines and touches nothing else. *)
Definition Logger_Println (line : string) : M unit :=
  fun w => (tt, {| w_config := w_config w; w_Logger := w_Logger w ++ [line] |}).

(** [if b { m }]. *)
Definition when (b : bool) (m : M unit) : M unit :=
  if b then m else ret tt.

(** A [switch { case b: return e ... }] without default: the error of the
    first case whose condition holds, [None] when the switch falls
    through. *)
Fixpoint switch (cases : list (bool * ConfigurationError)) : error :=
  match cases with
  | [] => None
  | (b, e) :: rest => if b then Some e else switch rest
  end.

(** A switch whose every case returns, followed by the rest of the body. *)
Definition or_else (r : error) (k : M error) : M error :=
  match r with
  | Some e => ret (Some e)
  | None => k
  end.

Notation "'switch_return' cases ';;;' k" := (or_else (switch cases) k)
  (at level 61, cases at next level, right associativity).

Definition is_nil {A : Type} (f : option A) : bool :=
  match f with
  | None => true
  | Some _ => false
  end.

(** ** [Config.Validate] *)
Definition Validate : M error :=
  c <- receiver ;;
  (* some configuration values should be warned on but not fail completely, do those first *)
  when (Producer_RequiredAcks (Producer c) >? 1)
    (Logger_Println "Producer.RequiredAcks > 1 is deprecated and will raise an exception with kafka >= 0.8.2.0.") ;;
  when (Producer_MaxMessageBytes (Producer c) >=? forceFlushThreshold)
    (Logger_Println "Producer.MaxMessageBytes is too close to MaxRequestSize; it will be ignored.") ;;
  when (Producer_Flush_Bytes (Producer_Flush (Producer c)) >=? forceFlushThreshold)
    (Logger_Println "Producer.Flush.Bytes is too close to MaxRequestSize; it will be ignored.") ;;
  when (negb (Z.rem (Producer_Timeout (Producer c)) time.Millisecond =? 0))
    (Logger_Println "Producer.Timeout only supports millisecond resolution; nanoseconds will be truncated.") ;;
  when (Consumer_MaxWaitTime (Consumer c) <? 100 * time.Millisecond)
    (Logger_Println "Consumer.MaxWaitTime is very low, which can cause high CPU and network usage. See documentation for details.") ;;
  when (negb (Z.rem (Consumer_MaxWaitTime (Consumer c)) time.Millisecond =? 0))
    (Logger_Println "Consumer.MaxWaitTime only supports millisecond precision; nanoseconds will be truncated.") ;;
  when (ClientID c =? "sarama")%string
    (Logger_Println "ClientID is the default of 'sarama', you should consider setting it to something application-specific.") ;;

  (* validate Net values *)
  switch_return [
    (Net_MaxOpenRequests (Net c) <=? 0, "Net.MaxOpenRequests must be > 0");
    (Net_DialTimeout (Net c) <=? 0, "Net.DialTimeout must be > 0");
    (Net_ReadTimeout (Net c) <=? 0, "Net.ReadTimeout must be > 0");
    (Net_WriteTimeout (Net c) <=? 0, "Net.WriteTimeout must be > 0");
    (Net_KeepAlive (Net c) <? 0, "Net.KeepAlive must be >= 0")
  ] ;;;

  (* validate the Metadata values *)
  switch_return [
    (Metadata_Retry_Max (Metadata_Retry (Metadata c)) <? 0, "Metadata.Retry.Max must be >= 0");
    (Metadata_Retry_Backoff (Metadata_Retry (Metadata c)) <? 0, "Metadata.Retry.Backoff must be >= 0");
    (Metadata_RefreshFrequency (Metadata c) <? 0, "Metadata.RefreshFrequency must be >= 0")
  ] ;;;

  (* validate the Producer values *)
  switch_return [
    (Producer_MaxMessageBytes (Producer c) <=? 0, "Producer.MaxMessageBytes must be > 0");
    (Producer_RequiredAcks (Producer c) <? -1, "Producer.RequiredAcks must be >= -1");
    (Producer_Timeout (Producer c) <=? 0, "Producer.Timeout must be > 0");
    (is_nil (Producer_Partitioner (Producer c)), "Producer.Partitioner must not be nil");
    (Producer_Flush_Bytes (Producer_Flush (Producer c)) <? 0, "Producer.Flush.Bytes must be >= 0");
    (Producer_Flush_Messages (Producer_Flush (Producer c)) <? 0, "Producer.Flush.Messages must be >= 0");
    (Producer_Flush_Frequency (Producer_Flush (Producer c)) <? 0, "Producer.Flush.Frequency must be >= 0");
    (Producer_Flush_MaxMessages (Producer_Flush (Producer c)) <? 0, "Producer.Flush.MaxMessages must be >= 0");
    ((Producer_Flush_MaxMessages (Producer_Flush (Producer c)) >? 0)
       && (Producer_Flush_MaxMessages (Producer_Flush (Producer c))
             <? Producer_Flush_Messages (Producer_Flush (Producer c))),
     "Producer.Flush.MaxMessages must be >= Producer.Flush.Messages when set");
    (Producer_Retry_Max (Producer_Retry (Producer c)) <? 0, "Producer.Retry.Max must be >= 0");
    (Producer_Retry_Backoff (Producer_Retry (Producer c)) <? 0, "Producer.Retry.Backoff must be >= 0")
  ] ;;;

  (* validate the Consumer values *)
  switch_return [
    (Consumer_Fetch_Min (Consumer_Fetch (Consumer c)) <=? 0, "Consumer.Fetch.Min must be > 0");
    (Consumer_Fetch_Default (Consumer_Fetch (Consumer c)) <=? 0, "Consumer.Fetch.Default must be > 0");
    (Consumer_Fetch_Max (Consumer_Fetch (Consumer c)) <? 0, "Consumer.Fetch.Max must be >= 0");
    (Consumer_MaxWaitTime (Consumer c) <? 1 * time.Millisecond, "Consumer.MaxWaitTime must be > 1ms");
    (Consumer_Retry_Backoff (Consumer_Retry (Consumer c)) <? 0, "Consumer.Retry.Backoff must be >= 0")
  ] ;;;

  (* validate misc shared values *)
  switch_return [
    (ChannelBufferSize c <? 0, "ChannelBufferSize must be >= 0")
  ] ;;;

  ret None.

(** [c.Validate()] run on the struct [c] with the logger holding [log]. *)
Definition run_Validate (c : Config) (log : list string) : error * World :=
  Validate {| w_config := c; w_Logger := log |}.

(** The error a run returns, and the lines it adds to the logger. *)
Definition Validate_result (c : Config) (log : list string) : error :=
  fst (run_Validate c log).

Definition Validate_lines (c : Config) (log : list string) : list string :=
  skipn (length log) (w_Logger (snd (run_Validate c log))).

(** ** Machine ranges of the field types

    [int] is taken at 64 bits, [time.Duration] is an [int64], the fetch
    sizes are [int32].  Modelled from the spec: [RequiredAcks] (a signed
    small integer) is taken at 16 bits and [CompressionCodec] at 8; both
    types are declared outside [config.go]. *)
Definition in_int (bits : Z) (z : Z) : bool :=
  (- 2 ^ (bits - 1) <=? z) && (z <? 2 ^ (bits - 1)).

Definition wf_Config (c : Config) : bool :=
  in_int 64 (Net_MaxOpenRequests (Net c))
  && in_int 64 (Net_DialTimeout (Net c))
  && in_int 64 (Net_ReadTimeout (Net c))
  && in_int 64 (Net_WriteTimeout (Net c))
  && in_int 64 (Net_KeepAlive (Net c))
  && in_int 64 (Metadata_Retry_Max (Metadata_Retry (Metadata c)))
  && in_int 64 (Metadata_Retry_Backoff (Metadata_Retry (Metadata c)))
  && in_int 64 (Metadata_RefreshFrequency (Metadata c))
  && in_int 64 (Producer_MaxMessageBytes (Producer c))
  && in_int 16 (Producer_RequiredAcks (Producer c))
  && in_int 64 (Producer_Timeout (Producer c))
  && in_int 8 (Producer_Compression (Producer c))
  && in_int 64 (Producer_Flush_Bytes (Producer_Flush (Producer c)))
  && in_int 64 (Producer_Flush_Messages (Producer_Flush (Producer c)))
  && in_int 64 (Producer_Flush_Frequency (Producer_Flush (Producer c)))
  && in_int 64 (Producer_Flush_MaxMessages (Producer_Flush (Producer c)))
  && in_int 64 (Producer_Retry_Max (Producer_Retry (Producer c)))
  && in_int 64 (Producer_Retry_Backoff (Producer_Retry (Producer c)))
  && in_int 64 (Consumer_Retry_Backoff (Consumer_Retry (Consumer c)))
  && in_int 32 (Consumer_Fetch_Min (Consumer_Fetch (Consumer c)))
  && in_int 32 (Consumer_Fetch_Default (Consumer_Fetch (Consumer c)))
  && in_int 32 (Consumer_Fetch_Max (Consumer_Fetch (Consumer c)))
  && in_int 64 (Consumer_MaxWaitTime (Consumer c))
  && in_int 64 (ChannelBufferSize c).

(** ** The advisory conditions and the fatal checks, as tables

    The two tables below are what the properties are stated against: the
    seven advisory conditions with their lines, and the fatal checks by
    namespace group.  [Validate_run] relates a run of [Validate] to them. *)

Inductive Advisory :=
| DeprecatedAcks
| MaxMessageBytesAtCeiling
| FlushBytesAtCeiling
| TimeoutSubMillisecond
| MaxWaitTimeVeryLow
| MaxWaitTimeSubMillisecond
| DefaultClientID.

Definition all_advisories : list Advisory :=
  [DeprecatedAcks; MaxMessageBytesAtCeiling; FlushBytesAtCeiling;
   TimeoutSubMillisecond; MaxWaitTimeVeryLow; MaxWaitTimeSubMillisecond;
   DefaultClientID].

Definition advisory_holds (a : Advisory) (c : Config) : bool :=
  match a with
  | DeprecatedAcks => 1 <? Producer_RequiredAcks (Producer c)
  | MaxMessageBytesAtCeiling =>
      forceFlushThreshold <=? Producer_MaxMessageBytes (Producer c)
  | FlushBytesAtCeiling =>
      forceFlushThreshold <=? Producer_Flush_Bytes (Producer_Flush (Producer c))
  | TimeoutSubMillisecond =>
      negb (Z.rem (Producer_Timeout (Producer c)) time.Millisecond =? 0)
  | MaxWaitTimeVeryLow =>
      Consumer_MaxWaitTime (Consumer c) <? 100 * time.Millisecond
  | MaxWaitTimeSubMillisecond =>
      negb (Z.rem (Consumer_MaxWaitTime (Consumer c)) time.Millisecond =? 0)
  | DefaultClientID => (ClientID c =? "sarama")%string
  end.

Definition advisory_line (a : Advisory) : string :=
  match a with
  | DeprecatedAcks =>
      "Producer.RequiredAcks > 1 is deprecated and will raise an exception with kafka >= 0.8.2.0."
  | MaxMessageBytesAtCeiling =>
      "Producer.MaxMessageBytes is too close to MaxRequestSize; it will be ignored."
  | FlushBytesAtCeiling =>
      "Producer.Flush.Bytes is too close to MaxRequestSize; it will be ignored."
  | TimeoutSubMillisecond =>
      "Producer.Timeout only supports millisecond resolution; nanoseconds will be truncated."
  | MaxWaitTimeVeryLow =>
      "Consumer.MaxWaitTime is very low, which can cause high CPU and network usage. See documentation for details."
  | MaxWaitTimeSubMillisecond =>
      "Consumer.MaxWaitTime only supports millisecond precision; nanoseconds will be truncated."
  | DefaultClientID =>
      "ClientID is the default of 'sarama', you should consider setting it to something application-specific."
  end.

(** The advisories that hold of [c], in the order of the table. *)
Definition triggered (c : Config) : list Advisory :=
  filter (fun a => advisory_holds a c) all_advisories.

(** The lines one run of [Validate] on [c] gives the logger. *)
Definition advisories (c : Config) : list string :=
  map advisory_line (triggered c).

Inductive Group := GNet | GMetadata | GProducer | GConsumer | GMisc.

Definition all_groups : list Group :=
  [GNet; GMetadata; GProducer; GConsumer; GMisc].


(** The fatal checks of a group: the condition under which each one fails,
    and its error. *)
Definition group_cases (g : Group) (c : Config) : list (bool * ConfigurationError) :=
  match g with
  | GNet =>
      [(Net_MaxOpenRequests (Net c) <=? 0, "Net.MaxOpenRequests must be > 0");
       (Net_DialTimeout (Net c) <=? 0, "Net.DialTimeout must be > 0");
       (Net_ReadTimeout (Net c) <=? 0, "Net.ReadTimeout must be > 0");
       (Net_WriteTimeout (Net c) <=? 0, "Net.WriteTimeout must be > 0");
       (Net_KeepAlive (Net c) <? 0, "Net.KeepAlive must be >= 0")]
  | GMetadata =>
      [(Metadata_Retry_Max (Metadata_Retry (Metadata c)) <? 0, "Metadata.Retry.Max must be >= 0");
       (Metadata_Retry_Backoff (Metadata_Retry (Metadata c)) <? 0, "Metadata.Retry.Backoff must be >= 0");
       (Metadata_RefreshFrequency (Metadata c) <? 0, "Metadata.RefreshFrequency must be >= 0")]
  | GProducer =>
      [(Producer_MaxMessageBytes (Producer c) <=? 0, "Producer.MaxMessageBytes must be > 0");
       (Producer_RequiredAcks (Producer c) <? -1, "Producer.RequiredAcks must be >= -1");
       (Producer_Timeout (Producer c) <=? 0, "Producer.Timeout must be > 0");
       (is_nil (Producer_Partitioner (Producer c)), "Producer.Partitioner must not be nil");
       (Producer_Flush_Bytes (Producer_Flush (Producer c)) <? 0, "Producer.Flush.Bytes must be >= 0");
       (Producer_Flush_Messages (Producer_Flush (Producer c)) <? 0, "Producer.Flush.Messages must be >= 0");
       (Producer_Flush_Frequency (Producer_Flush (Producer c)) <? 0, "Producer.Flush.Frequency must be >= 0");
       (Producer_Flush_MaxMessages (Producer_Flush (Producer c)) <? 0, "Producer.Flush.MaxMessages must be >= 0");
       ((0 <? Producer_Flush_MaxMessages (Producer_Flush (Producer c)))
          && (Producer_Flush_MaxMessages (Producer_Flush (Producer c))
                <? Producer_Flush_Messages (Producer_Flush (Producer c))),
        "Producer.Flush.MaxMessages must be >= Producer.Flush.Messages when set");
       (Producer_Retry_Max (Producer_Retry (Producer c)) <? 0, "Producer.Retry.Max must be >= 0");
       (Producer_Retry_Backoff (Producer_Retry (Producer c)) <? 0, "Producer.Retry.Backoff must be >= 0")]
  | GConsumer =>
      [(Consumer_Fetch_Min (Consumer_Fetch (Consumer c)) <=? 0, "Consumer.Fetch.Min must be > 0");
       (Consumer_Fetch_Default (Consumer_Fetch (Consumer c)) <=? 0, "Consumer.Fetch.Default must be > 0");
       (Consumer_Fetch_Max (Consumer_Fetch (Consumer c)) <? 0, "Consumer.Fetch.Max must be >= 0");
       (Consumer_MaxWaitTime (Consumer c) <? 1 * time.Millisecond, "Consumer.MaxWaitTime must be > 1ms");
       (Consumer_Retry_Backoff (Consumer_Retry (Consumer c)) <? 0, "Consumer.Retry.Backoff must be >= 0")]
  | GMisc =>
      [(ChannelBufferSize c <? 0, "ChannelBufferSize must be >= 0")]
  end.

(** A group is violated when one of its checks fails. *)
Definition violated (g : Group) (c : Config) : bool :=
  existsb fst (group_cases g c).

(** The errors a group can return. *)
Definition group_errors (g : Group) : list ConfigurationError :=
  map snd (group_cases g Config_zero).

(** The first failing check over all groups in order. *)
Definition fatal (c : Config) : error :=
  switch (flat_map (fun g => group_cases g c) all_groups).

(** Two configurations that differ at most in [Producer.Compression],
    [Producer.Return.Successes], [Producer.Return.Errors],
    [Consumer.Return.Errors] and [ClientID]: every other field agrees. *)
Definition differ_only_in_unchecked (c1 c2 : Config) : Prop :=
  Net c1 = Net c2 /\
  Metadata c1 = Metadata c2 /\
  Producer_MaxMessageBytes (Producer c1) = Producer_MaxMessageBytes (Producer c2) /\
  Producer_RequiredAcks (Producer c1) = Producer_RequiredAcks (Producer c2) /\
  Producer_Timeout (Producer c1) = Producer_Timeout (Producer c2) /\
  Producer_Partitioner (Producer c1) = Producer_Partitioner (Producer c2) /\
  Producer_Flush (Producer c1) = Producer_Flush (Producer c2) /\
  Producer_Retry (Producer c1) = Producer_Retry (Producer c2) /\
  Consumer_Retry (Consumer c1) = Consumer_Retry (Consumer c2) /\
  Consumer_Fetch (Consumer c1) = Consumer_Fetch (Consumer c2) /\
  Consumer_MaxWaitTime (Consumer c1) = Consumer_MaxWaitTime (Consumer c2) /\
  ChannelBufferSize c1 = ChannelBufferSize c2.

(** ** Counting and membership, as the properties use them *)

(** Membership of an error in a list of errors, decided. *)
Definition error_in (e : ConfigurationError) (l : list ConfigurationError) : bool :=
  existsb (String.eqb e) l.

(** How many times [line] occurs in [lines]. *)
Definition count_line (line : string) (lines : list string) : nat :=
  length (filter (String.eqb line) lines).

(** ** Configurations the properties are run on *)

(** A configuration that triggers the seven advisory conditions at once;
    it passes the fatal checks when the ceiling is positive. *)
Definition all_advisories_Config : Config :=
  set_ClientID "sarama"
    (set_Consumer_MaxWaitTime (1500 * time.Microsecond)
       (set_Producer_Timeout (10 * time.Second + 1 * time.Nanosecond)
          (set_Producer_Flush_Bytes forceFlushThreshold
             (set_Producer_MaxMessageBytes forceFlushThreshold
                (set_Producer_RequiredAcks 2 NewConfig))))).

(** The defaults with [Producer.Flush.Messages] and
    [Producer.Flush.MaxMessages] set. *)
Definition Flush_Config (maxMessages messages : Z) : Config :=
  set_Producer_Flush_MaxMessages maxMessages
    (set_Producer_Flush_Messages messages NewConfig).

(** The defaults with a negative [Consumer.Retry.Backoff] and a zero
    [Consumer.Fetch.Min]. *)
Definition Consumer_order_Config : Config :=
  set_Consumer_Fetch_Min 0 (set_Consumer_Retry_Backoff (-1) NewConfig).


(** The defaults with the five fields no fatal check reads all changed. *)
Definition unchecked_changed_Config : Config :=
  set_ClientID "billing-service"
    (set_Consumer_Return_Errors true
       (set_Producer_Return_Errors false
          (set_Producer_Return_Successes true
             (set_Producer_Compression 2 NewConfig)))).

(** ** Notions for the further properties *)

(** Every fatal check of the body, in its order. *)
Definition all_cases (c : Config) : list (bool * ConfigurationError) :=
  flat_map (fun g => group_cases g c) all_groups.


(** The requirements the fatal checks put on the fields, each the negation
    of the condition of its [case]. *)
Definition accepted (c : Config) : Prop :=
  0 < Net_MaxOpenRequests (Net c) /\
  0 < Net_DialTimeout (Net c) /\
  0 < Net_ReadTimeout (Net c) /\
  0 < Net_WriteTimeout (Net c) /\
  0 <= Net_KeepAlive (Net c) /\
  0 <= Metadata_Retry_Max (Metadata_Retry (Metadata c)) /\
  0 <= Metadata_Retry_Backoff (Metadata_Retry (Metadata c)) /\
  0 <= Metadata_RefreshFrequency (Metadata c) /\
  0 < Producer_MaxMessageBytes (Producer c) /\
  -1 <= Producer_RequiredAcks (Producer c) /\
  0 < Producer_Timeout (Producer c) /\
  Producer_Partitioner (Producer c) <> None /\
  0 <= Producer_Flush_Bytes (Producer_Flush (Producer c)) /\
  0 <= Producer_Flush_Messages (Producer_Flush (Producer c)) /\
  0 <= Producer_Flush_Frequency (Producer_Flush (Producer c)) /\
  0 <= Producer_Flush_MaxMessages (Producer_Flush (Producer c)) /\
  (Producer_Flush_MaxMessages (Producer_Flush (Producer c)) = 0 \/
   Producer_Flush_Messages (Producer_Flush (Producer c))
     <= Producer_Flush_MaxMessages (Producer_Flush (Producer c))) /\
  0 <= Producer_Retry_Max (Producer_Retry (Producer c)) /\
  0 <= Producer_Retry_Backoff (Producer_Retry (Producer c)) /\
  0 < Consumer_Fetch_Min (Consumer_Fetch (Consumer c)) /\
  0 < Consumer_Fetch_Default (Consumer_Fetch (Consumer c)) /\
  0 <= Consumer_Fetch_Max (Consumer_Fetch (Consumer c)) /\
  1 * time.Millisecond <= Consumer_MaxWaitTime (Consumer c) /\
  0 <= Consumer_Retry_Backoff (Consumer_Retry (Consumer c)) /\
  0 <= ChannelBufferSize c.

(** [c'] is [c] with numeric fields raised or kept: no numeric field is
    lower, [Producer.Flush.Messages] and [Producer.Flush.MaxMessages] are
    the same, and a partitioner that was set is still set. *)
Definition raised (c c' : Config) : Prop :=
  Net_MaxOpenRequests (Net c) <= Net_MaxOpenRequests (Net c') /\
  Net_DialTimeout (Net c) <= Net_DialTimeout (Net c') /\
  Net_ReadTimeout (Net c) <= Net_ReadTimeout (Net c') /\
  Net_WriteTimeout (Net c) <= Net_WriteTimeout (Net c') /\
  Net_KeepAlive (Net c) <= Net_KeepAlive (Net c') /\
  Metadata_Retry_Max (Metadata_Retry (Metadata c))
    <= Metadata_Retry_Max (Metadata_Retry (Metadata c')) /\
  Metadata_Retry_Backoff (Metadata_Retry (Metadata c))
    <= Metadata_Retry_Backoff (Metadata_Retry (Metadata c')) /\
  Metadata_RefreshFrequency (Metadata c) <= Metadata_RefreshFrequency (Metadata c') /\
  Producer_MaxMessageBytes (Producer c) <= Producer_MaxMessageBytes (Producer c') /\
  Producer_RequiredAcks (Producer c) <= Producer_RequiredAcks (Producer c') /\
  Producer_Timeout (Producer c) <= Producer_Timeout (Producer c') /\
  (Producer_Partitioner (Producer c) <> None ->
   Producer_Partitioner (Producer c') <> None) /\
  Producer_Flush_Bytes (Producer_Flush (Producer c))
    <= Producer_Flush_Bytes (Producer_Flush (Producer c')) /\
  Producer_Flush_Messages (Producer_Flush (Producer c))
    = Producer_Flush_Messages (Producer_Flush (Producer c')) /\
  Producer_Flush_Frequency (Producer_Flush (Producer c))
    <= Producer_Flush_Frequency (Producer_Flush (Producer c')) /\
  Producer_Flush_MaxMessages (Producer_Flush (Producer c))
    = Producer_Flush_MaxMessages (Producer_Flush (Producer c')) /\
  Producer_Retry_Max (Producer_Retry (Producer c))
    <= Producer_Retry_Max (Producer_Retry (Producer c')) /\
  Producer_Retry_Backoff (Producer_Retry (Producer c))
    <= Producer_Retry_Backoff (Producer_Retry (Producer c')) /\
  Consumer_Fetch_Min (Consumer_Fetch (Consumer c))
    <= Consumer_Fetch_Min (Consumer_Fetch (Consumer c')) /\
  Consumer_Fetch_Default (Consumer_Fetch (Consumer c))
    <= Consumer_Fetch_Default (Consumer_Fetch (Consumer c')) /\
  Consumer_Fetch_Max (Consumer_Fetch (Consumer c))
    <= Consumer_Fetch_Max (Consumer_Fetch (Consumer c')) /\
  Consumer_MaxWaitTime (Consumer c) <= Consumer_MaxWaitTime (Consumer c') /\
  Consumer_Retry_Backoff (Consumer_Retry (Consumer c))
    <= Consumer_Retry_Backoff (Consumer_Retry (Consumer c')) /\
  ChannelBufferSize c <= ChannelBufferSize c'.

(** No string occurs twice in [l], decided. *)
Fixpoint distinct (l : list string) : bool :=
  match l with
  | [] => true
  | x :: r => negb (error_in x r) && distinct r
  end.

(** [n] calls of [Validate] one after the other on the same receiver, as a
    caller that validates again would make them; the state they leave. *)
Fixpoint Validate_times (n : nat) (w : World) : World :=
  match n with
  | O => w
  | S n' => Validate_times n' (snd (Validate w))
  end.

(** The defaults with longer timeouts and larger buffers. *)
Definition raised_Config : Config :=
  set_ChannelBufferSize 1024
    (set_Consumer_MaxWaitTime (500 * time.Millisecond)
       (set_Producer_RequiredAcks 3
          (set_Net_DialTimeout (60 * time.Second) NewConfig))).

(** ** Proof steps shared by the properties *)

Ltac case_checks :=
  repeat (match goal with
          | |- context [if ?b then _ else _] =>
              lazymatch b with
              | true => fail
              | false => fail
              | _ => destruct b eqn:?
              end
          end; cbv iota).

(** Both directions of [result = Some e <-> conditions] once the checks
    are decided. *)
Ltac decided_iff :=
  split; intros ?H;
  [ try discriminate;
    repeat split; first [reflexivity | assumption | lia | discriminate]
  | try reflexivity; exfalso; lia ].

Ltac to_Z :=
  repeat match goal with
         | H : (_ <=? _) = true |- _ => apply Z.leb_le in H
         | H : (_ <=? _) = false |- _ => apply Z.leb_gt in H
         | H : (_ <? _) = true |- _ => apply Z.ltb_lt in H
         | H : (_ <? _) = false |- _ => apply Z.ltb_ge in H
         | H : (_ && _) = true |- _ => apply andb_prop in H; destruct H
         | H : (_ && _) = false |- _ => apply andb_false_iff in H
         end.

(** ** A run of [Validate] *)

Lemma switch_app (l1 l2 : list (bool * ConfigurationError)) :
  switch (l1 ++ l2) =
  match switch l1 with
  | Some e => Some e
  | None => switch l2
  end.
Proof.
  induction l1 as [|[b e] l1 IH]; simpl; [reflexivity|].
  destruct b; [reflexivity | exact IH].
Qed.

Lemma when_Println_run (b : bool) (line : string) (w : World) :
  when b (Logger_Println line) w =
  (tt, {| w_config := w_config w;
          w_Logger := w_Logger w ++ (if b then [line] else []) |}).
Proof.
  destruct b; unfold when, Logger_Println, ret; [reflexivity|].
  rewrite app_nil_r. destruct w; reflexivity.
Qed.

Lemma bind_when_Println {A : Type} (b : bool) (line : string) (k : M A) (w : World) :
  (when b (Logger_Println line) ;; k) w =
  k {| w_config := w_config w;
       w_Logger := w_Logger w ++ (if b then [line] else []) |}.
Proof.
  unfold bind. rewrite when_Println_run. reflexivity.
Qed.

Lemma or_else_run (r : error) (k : M error) (w : World) :
  or_else r k w =
  match r with
  | Some e => (Some e, w)
  | None => k w
  end.
Proof. destruct r; reflexivity. Qed.

Lemma advisories_eq (c : Config) :
  advisories c =
  ((if Producer_RequiredAcks (Producer c) >? 1
   then [advisory_line DeprecatedAcks] else []) ++
  (if Producer_MaxMessageBytes (Producer c) >=? forceFlushThreshold
   then [advisory_line MaxMessageBytesAtCeiling] else []) ++
  (if Producer_Flush_Bytes (Producer_Flush (Producer c)) >=? forceFlushThreshold
   then [advisory_line FlushBytesAtCeiling] else []) ++
  (if negb (Z.rem (Producer_Timeout (Producer c)) time.Millisecond =? 0)
   then [advisory_line TimeoutSubMillisecond] else []) ++
  (if Consumer_MaxWaitTime (Consumer c) <? 100 * time.Millisecond
   then [advisory_line MaxWaitTimeVeryLow] else []) ++
  (if negb (Z.rem (Consumer_MaxWaitTime (Consumer c)) time.Millisecond =? 0)
   then [advisory_line MaxWaitTimeSubMillisecond] else []) ++
  (if (ClientID c =? "sarama")%string
   then [advisory_line DefaultClientID] else []))%list.
Proof.
  unfold advisories, triggered, all_advisories.
  rewrite Z.gtb_ltb, !Z.geb_leb.
  cbn [filter advisory_holds].
  repeat match goal with
         | |- context [if ?b then _ else _] => destruct b
         end; reflexivity.
Qed.

Lemma fatal_eq (c : Config) :
  fatal c =
  match switch (group_cases GNet c) with
  | Some e => Some e
  | None =>
  match switch (group_cases GMetadata c) with
  | Some e => Some e
  | None =>
  match switch (group_cases GProducer c) with
  | Some e => Some e
  | None =>
  match switch (group_cases GConsumer c) with
  | Some e => Some e
  | None => switch (group_cases GMisc c)
  end end end end.
Proof.
  unfold fatal, all_groups. cbn [flat_map].
  rewrite !switch_app. cbn [switch].
  repeat match goal with
         | |- context [switch ?l] => destruct (switch l); [reflexivity|]
         end.
  reflexivity.
Qed.

(** One run of [Validate]: the result is the first failing fatal check, the
    receiver is left as it was, and the logger is given the advisories that
    hold, whatever the result. *)
Lemma Validate_run (c : Config) (log : list string) :
  run_Validate c log =
  (fatal c, {| w_config := c; w_Logger := log ++ advisories c |}).
Proof.
  unfold run_Validate, Validate.
  unfold bind at 1. unfold receiver. cbv beta iota. cbn [w_config].
  repeat (rewrite bind_when_Println; cbn [w_config w_Logger]).
  repeat rewrite <- app_assoc.
  rewrite advisories_eq, fatal_eq. cbn [advisory_line group_cases].
  rewrite (Z.gtb_ltb (Producer_Flush_MaxMessages _) 0).
  repeat (rewrite or_else_run;
          match goal with
          | |- context [switch ?l] => destruct (switch l); [reflexivity|]
          end).
  reflexivity.
Qed.

Lemma Validate_result_fatal (c : Config) (log : list string) :
  Validate_result c log = fatal c.
Proof. unfold Validate_result. rewrite Validate_run. reflexivity. Qed.

Lemma Validate_lines_advisories (c : Config) (log : list string) :
  Validate_lines c log = advisories c.
Proof.
  unfold Validate_lines. rewrite Validate_run. cbn [snd w_Logger].
  rewrite skipn_app, skipn_all, Nat.sub_diag. reflexivity.
Qed.

Lemma Validate_world (w : World) :
  Validate w =
  (fatal (w_config w),
   {| w_config := w_config w;
      w_Logger := (w_Logger w ++ advisories (w_config w))%list |}).
Proof. destruct w as [c log]. apply (Validate_run c log). Qed.

(** ** Facts about the tables *)

Lemma switch_None (l : list (bool * ConfigurationError)) :
  switch l = None <-> existsb fst l = false.
Proof.
  induction l as [|[b e] l IH]; cbn [switch existsb fst]; [tauto|].
  destruct b; cbn [orb]; [split; discriminate | exact IH].
Qed.

Lemma switch_Some_In (l : list (bool * ConfigurationError)) (e : ConfigurationError) :
  switch l = Some e -> In e (map snd l).
Proof.
  induction l as [|[b e'] l IH]; cbn [switch map snd In]; [discriminate|].
  destruct b; intros H; [left; congruence | right; auto].
Qed.

Lemma group_cases_errors (g : Group) (c : Config) :
  map snd (group_cases g c) = group_errors g.
Proof. destruct g; reflexivity. Qed.

Lemma fatal_None (c : Config) :
  fatal c = None <-> forall g, violated g c = false.
Proof.
  rewrite fatal_eq. unfold violated. split.
  - intros H g.
    destruct (switch (group_cases GNet c)) eqn:E1; [discriminate|].
    destruct (switch (group_cases GMetadata c)) eqn:E2; [discriminate|].
    destruct (switch (group_cases GProducer c)) eqn:E3; [discriminate|].
    destruct (switch (group_cases GConsumer c)) eqn:E4; [discriminate|].
    destruct g; apply switch_None; assumption.
  - intros H.
    rewrite (proj2 (switch_None _) (H GNet)), (proj2 (switch_None _) (H GMetadata)),
      (proj2 (switch_None _) (H GProducer)), (proj2 (switch_None _) (H GConsumer)).
    apply switch_None, (H GMisc).
Qed.

(** ** The default constructor *)

(** C1.  [NewConfig] is a constant: it takes no input and always returns the
    same value, a [Config] and never an error.  Its fields are the listed
    defaults: Net.MaxOpenRequests 5, the three Net timeouts 30s, KeepAlive 0;
    Metadata.Retry.Max 3, Retry.Backoff 250ms, RefreshFrequency 10min;
    Producer.MaxMessageBytes 1000000, RequiredAcks WaitForLocal, Timeout 10s,
    the hash partitioner, Retry.Max 3, Retry.Backoff 100ms, Return.Errors
    true, Return.Successes false; Consumer.Fetch.Min 1, Fetch.Default 32768,
    Retry.Backoff 2s, MaxWaitTime 250ms, Return.Errors false;
    ChannelBufferSize 256; every field the body does not assign is at its
    zero value.  [Validate] on that value returns [nil], whatever the logger
    holds. *)
Theorem C1_NewConfig_defaults_pass_Validate :
  NewConfig =
    {| Net := {| Net_MaxOpenRequests := 5;
                 Net_DialTimeout := 30 * time.Second;
                 Net_ReadTimeout := 30 * time.Second;
                 Net_WriteTimeout := 30 * time.Second;
                 Net_KeepAlive := 0 |};
       Metadata := {| Metadata_Retry := {| Metadata_Retry_Max := 3;
                                           Metadata_Retry_Backoff := 250 * time.Millisecond |};
                      Metadata_RefreshFrequency := 10 * time.Minute |};
       Producer := {| Producer_MaxMessageBytes := 1000000;
                      Producer_RequiredAcks := WaitForLocal;
                      Producer_Timeout := 10 * time.Second;
                      Producer_Compression := 0;
                      Producer_Partitioner := Some NewHashPartitioner;
                      Producer_Return := {| Producer_Return_Successes := false;
                                            Producer_Return_Errors := true |};
                      Producer_Flush := {| Producer_Flush_Bytes := 0;
                                           Producer_Flush_Messages := 0;
                                           Producer_Flush_Frequency := 0;
                                           Producer_Flush_MaxMessages := 0 |};
                      Producer_Retry := {| Producer_Retry_Max := 3;
                                           Producer_Retry_Backoff := 100 * time.Millisecond |} |};
       Consumer := {| Consumer_Retry := {| Consumer_Retry_Backoff := 2 * time.Second |};
                      Consumer_Fetch := {| Consumer_Fetch_Min := 1;
                                           Consumer_Fetch_Default := 32768;
                                           Consumer_Fetch_Max := 0 |};
                      Consumer_MaxWaitTime := 250 * time.Millisecond;
                      Consumer_Return := {| Consumer_Return_Errors := false |} |};
       ClientID := "";
       ChannelBufferSize := 256 |}
  /\ WaitForLocal = 1
  /\ wf_Config NewConfig = true
  /\ forall log : list string,
       Validate_result NewConfig log = None
       /\ w_config (snd (run_Validate NewConfig log)) = NewConfig.
Proof.
  split; [reflexivity|]. split; [reflexivity|]. split; [reflexivity|].
  intros log. rewrite Validate_result_fatal, Validate_run.
  split; reflexivity.
Qed.

(** ** Advisories and the outcome *)

(** C8.  Whether [Validate] succeeds is decided by the fatal checks alone:
    it returns [nil] exactly when no group has a failing check, whatever the
    logger holds and whichever advisory conditions hold.  The advisories go
    to the logger only: the run leaves the configuration as it was and
    appends its lines to the logger.  In particular a configuration that
    passes every fatal check and triggers all seven advisory conditions is
    accepted, and the logger is given the seven lines. *)
Theorem C8_advisories_do_not_affect_outcome (c : Config) (log : list string) :
  (Validate_result c log = None <-> forall g, violated g c = false) /\
  (forall log', Validate_result c log' = Validate_result c log) /\
  w_config (snd (run_Validate c log)) = c /\
  w_Logger (snd (run_Validate c log)) = (log ++ Validate_lines c log)%list /\
  ((forall g, violated g c = false) ->
   (forall a, advisory_holds a c = true) ->
   Validate_result c log = None /\
   Validate_lines c log = map advisory_line all_advisories).
Proof.
  rewrite Validate_lines_advisories, Validate_result_fatal, Validate_run.
  cbn [snd w_config w_Logger].
  split; [apply fatal_None|].
  split; [intros log'; apply Validate_result_fatal|].
  split; [reflexivity|]. split; [reflexivity|].
  intros Hfatal Hadv. split; [apply fatal_None, Hfatal|].
  unfold advisories, triggered, all_advisories. cbn [filter].
  rewrite !Hadv. reflexivity.
Qed.

(** ** [Validate] as a read-only predicate *)

(** C9.  A run of [Validate] leaves every field of the configuration it
    checks as it was, and a second run on the state the first one left
    returns the same result, success or the same error, as does a run with
    any other content of the logger. *)
Theorem C9_Validate_read_only_and_repeatable (w : World) :
  w_config (snd (Validate w)) = w_config w /\
  fst (Validate (snd (Validate w))) = fst (Validate w) /\
  w_config (snd (Validate (snd (Validate w)))) = w_config w /\
  forall log' : list string,
    fst (Validate {| w_config := w_config w; w_Logger := log' |}) = fst (Validate w).
Proof.
  rewrite (Validate_world w). cbn [fst snd].
  rewrite Validate_world. cbn [fst snd w_config].
  repeat split.
  intros log'. rewrite Validate_world. reflexivity.
Qed.

(** ** Fields no fatal check reads *)

(** C10.  Two configurations that differ only in [Producer.Compression],
    [Producer.Return.Successes], [Producer.Return.Errors],
    [Consumer.Return.Errors] and [ClientID] get the same result from
    [Validate]: both succeed, or both fail with the same error. *)
Theorem C10_unchecked_fields_do_not_affect_result
    (c1 c2 : Config) (log1 log2 : list string) :
  differ_only_in_unchecked c1 c2 ->
  Validate_result c1 log1 = Validate_result c2 log2.
Proof.
  intros (HN & HM & H1 & H2 & H3 & H4 & H5 & H6 & H7 & H8 & H9 & H10).
  rewrite !Validate_result_fatal.
  unfold fatal, all_groups. cbn [flat_map group_cases].
  rewrite HN, HM, H1, H2, H3, H4, H5, H6, H7, H8, H9, H10.
  reflexivity.
Qed.

(** ** The order of the groups *)




Lemma In_error_in (e : ConfigurationError) (l : list ConfigurationError) :
  In e l -> error_in e l = true.
Proof.
  intros H. apply existsb_exists. exists e. split; [assumption|].
  apply String.eqb_refl.
Qed.



(** ** Single checks *)

Lemma advisory_line_inj (a a' : Advisory) :
  advisory_line a = advisory_line a' -> a = a'.
Proof. destruct a, a'; intros H; try reflexivity; discriminate. Qed.

Lemma In_advisories (a : Advisory) (c : Config) :
  In (advisory_line a) (advisories c) <-> advisory_holds a c = true.
Proof.
  unfold advisories, triggered. rewrite in_map_iff. split.
  - intros (a' & Heq & Hin). apply advisory_line_inj in Heq. subst a'.
    apply filter_In in Hin. tauto.
  - intros H. exists a. split; [reflexivity|]. apply filter_In.
    split; [destruct a; cbn; tauto | assumption].
Qed.

Lemma count_line_advisories (a : Advisory) (c : Config) :
  count_line (advisory_line a) (advisories c) =
  if advisory_holds a c then 1%nat else 0%nat.
Proof.
  unfold advisories, triggered, all_advisories, count_line. cbn [filter].
  destruct a;
    repeat match goal with
           | |- context [if advisory_holds ?x c then _ else _] =>
               destruct (advisory_holds x c)
           end; reflexivity.
Qed.

(** C3.  What [Validate] does at the floor of [Consumer.MaxWaitTime]: the
    check reads [MaxWaitTime < 1ms], so a wait of exactly one millisecond,
    which is not greater than 1ms, is accepted, although the error of the
    check reads "must be > 1ms".  A wait of 0 is rejected with that error;
    50ms is accepted and reported as very low; the very-low advisory is
    given exactly below 100ms. *)
Theorem C3_MaxWaitTime_of_1ms_is_accepted (log : list string) :
  Consumer_MaxWaitTime (Consumer (set_Consumer_MaxWaitTime (1 * time.Millisecond) NewConfig))
    = 1000000 /\
  wf_Config (set_Consumer_MaxWaitTime (1 * time.Millisecond) NewConfig) = true /\
  Validate_result (set_Consumer_MaxWaitTime (1 * time.Millisecond) NewConfig) log = None /\
  Validate_result (set_Consumer_MaxWaitTime 0 NewConfig) log
    = Some "Consumer.MaxWaitTime must be > 1ms" /\
  Validate_result (set_Consumer_MaxWaitTime (50 * time.Millisecond) NewConfig) log = None /\
  In "Consumer.MaxWaitTime is very low, which can cause high CPU and network usage. See documentation for details."
     (Validate_lines (set_Consumer_MaxWaitTime (50 * time.Millisecond) NewConfig) log) /\
  forall c : Config,
    In (advisory_line MaxWaitTimeVeryLow) (Validate_lines c log) <->
    Consumer_MaxWaitTime (Consumer c) < 100 * time.Millisecond.
Proof.
  rewrite !Validate_result_fatal.
  repeat (split; [reflexivity|]).
  split.
  - rewrite Validate_lines_advisories.
    apply (In_advisories MaxWaitTimeVeryLow). reflexivity.
  - intros c. rewrite Validate_lines_advisories, In_advisories.
    cbn [advisory_holds]. apply Z.ltb_lt.
Qed.

(** C4.  What [Validate] does with the [ClientID] that [NewConfig] leaves:
    [NewConfig] does not assign the field, so it is the empty string and not
    "sarama", and a run of [Validate] on the default configuration gives the
    logger no default-ClientID line.  The line is given once when the field
    is "sarama" and not at all otherwise, and the field never changes the
    result. *)
Theorem C4_unset_ClientID_gets_no_advisory (log : list string) :
  ClientID NewConfig = "" /\
  wf_Config NewConfig = true /\
  Validate_result NewConfig log = None /\
  count_line "ClientID is the default of 'sarama', you should consider setting it to something application-specific."
    (Validate_lines NewConfig log) = 0%nat /\
  (forall c : Config,
     count_line (advisory_line DefaultClientID) (Validate_lines c log) =
     if (ClientID c =? "sarama")%string then 1%nat else 0%nat) /\
  (forall (c : Config) (id : string),
     Validate_result (set_ClientID id c) log = Validate_result c log).
Proof.
  rewrite !Validate_result_fatal.
  repeat (split; [reflexivity|]).
  split; [|split].
  - rewrite Validate_lines_advisories.
    apply (count_line_advisories DefaultClientID NewConfig).
  - intros c. rewrite Validate_lines_advisories.
    apply (count_line_advisories DefaultClientID c).
  - intros c id. rewrite !Validate_result_fatal. reflexivity.
Qed.

(** C5.  Within the Consumer group the checks run in the order of the
    switch: Fetch.Min, Fetch.Default, Fetch.Max, MaxWaitTime and
    Retry.Backoff last.  So for a configuration that passes the Net,
    Metadata and Producer checks, a non-positive Fetch.Min gives the
    Fetch.Min error also when Retry.Backoff is negative, and the
    Retry.Backoff error is returned only when the four checks before it
    pass. *)
Theorem C5_Consumer_checks_in_switch_order (c : Config) (log : list string) :
  violated GNet c = false ->
  violated GMetadata c = false ->
  violated GProducer c = false ->
  (Consumer_Retry_Backoff (Consumer_Retry (Consumer c)) < 0 ->
   Consumer_Fetch_Min (Consumer_Fetch (Consumer c)) <= 0 ->
   Validate_result c log = Some "Consumer.Fetch.Min must be > 0") /\
  Validate_result c log =
    switch
      [(Consumer_Fetch_Min (Consumer_Fetch (Consumer c)) <=? 0,
        "Consumer.Fetch.Min must be > 0");
       (Consumer_Fetch_Default (Consumer_Fetch (Consumer c)) <=? 0,
        "Consumer.Fetch.Default must be > 0");
       (Consumer_Fetch_Max (Consumer_Fetch (Consumer c)) <? 0,
        "Consumer.Fetch.Max must be >= 0");
       (Consumer_MaxWaitTime (Consumer c) <? 1 * time.Millisecond,
        "Consumer.MaxWaitTime must be > 1ms");
       (Consumer_Retry_Backoff (Consumer_Retry (Consumer c)) <? 0,
        "Consumer.Retry.Backoff must be >= 0");
       (ChannelBufferSize c <? 0, "ChannelBufferSize must be >= 0")] /\
  (Validate_result c log = Some "Consumer.Retry.Backoff must be >= 0" <->
   0 < Consumer_Fetch_Min (Consumer_Fetch (Consumer c)) /\
   0 < Consumer_Fetch_Default (Consumer_Fetch (Consumer c)) /\
   0 <= Consumer_Fetch_Max (Consumer_Fetch (Consumer c)) /\
   1 * time.Millisecond <= Consumer_MaxWaitTime (Consumer c) /\
   Consumer_Retry_Backoff (Consumer_Retry (Consumer c)) < 0).
Proof.
  intros HN HM HP.
  rewrite Validate_result_fatal, fatal_eq.
  rewrite (proj2 (switch_None _) HN), (proj2 (switch_None _) HM),
    (proj2 (switch_None _) HP).
  cbn [group_cases switch].
  split; [|split].
  - intros _ Hmin. apply Z.leb_le in Hmin. rewrite Hmin. reflexivity.
  - case_checks; reflexivity.
  - case_checks; to_Z;
      (split; intros H;
       [try discriminate; repeat split; assumption
       |try reflexivity; exfalso; lia]).
Qed.

(** An error of the Net or Metadata group ends the run before the Producer
    checks. *)
Lemma fatal_past_Metadata (c : Config) (e : ConfigurationError) :
  error_in e (group_errors GNet ++ group_errors GMetadata) = false ->
  (fatal c = Some e <->
   violated GNet c = false /\
   violated GMetadata c = false /\
   match switch (group_cases GProducer c) with
   | Some e' => Some e'
   | None =>
       match switch (group_cases GConsumer c) with
       | Some e' => Some e'
       | None => switch (group_cases GMisc c)
       end
   end = Some e).
Proof.
  intros Hout. rewrite fatal_eq. unfold violated.
  assert (Hnot : forall g, g = GNet \/ g = GMetadata ->
                           switch (group_cases g c) <> Some e).
  { intros g Hg Hsw. apply switch_Some_In in Hsw.
    rewrite group_cases_errors in Hsw. apply In_error_in in Hsw.
    unfold error_in in Hout. rewrite existsb_app in Hout.
    apply orb_false_iff in Hout. destruct Hout as [H1 H2].
    unfold error_in in Hsw.
    destruct Hg; subst g;
      [exact (eq_true_false_abs _ Hsw H1) | exact (eq_true_false_abs _ Hsw H2)]. }
  destruct (switch (group_cases GNet c)) as [e1|] eqn:EN.
  { split; [intros H; exfalso; apply (Hnot GNet); [tauto | congruence]|].
    intros (HN & _). apply switch_None in HN. congruence. }
  destruct (switch (group_cases GMetadata c)) as [e2|] eqn:EM.
  { split; [intros H; exfalso; apply (Hnot GMetadata); [tauto | congruence]|].
    intros (_ & HM & _). apply switch_None in HM. congruence. }
  apply switch_None in EN, EM. tauto.
Qed.

(** C6.  The cross-field rule of the Producer.Flush settings.  On the
    defaults, Flush.MaxMessages 5 with Flush.Messages 10 fails with the
    error of the rule, 10 with 10 passes, and 0 with 10 passes.  In general
    [Validate] returns the error of the rule exactly when every check before
    it passes, the four single-field Flush checks among them, and
    Flush.MaxMessages is nonzero and below Flush.Messages. *)
Theorem C6_Flush_MaxMessages_cross_field_rule (log : list string) :
  Validate_result (Flush_Config 5 10) log
    = Some "Producer.Flush.MaxMessages must be >= Producer.Flush.Messages when set" /\
  Validate_result (Flush_Config 10 10) log = None /\
  Validate_result (Flush_Config 0 10) log = None /\
  forall c : Config,
    Validate_result c log
      = Some "Producer.Flush.MaxMessages must be >= Producer.Flush.Messages when set" <->
    violated GNet c = false /\
    violated GMetadata c = false /\
    0 < Producer_MaxMessageBytes (Producer c) /\
    -1 <= Producer_RequiredAcks (Producer c) /\
    0 < Producer_Timeout (Producer c) /\
    Producer_Partitioner (Producer c) <> None /\
    0 <= Producer_Flush_Bytes (Producer_Flush (Producer c)) /\
    0 <= Producer_Flush_Messages (Producer_Flush (Producer c)) /\
    0 <= Producer_Flush_Frequency (Producer_Flush (Producer c)) /\
    0 <= Producer_Flush_MaxMessages (Producer_Flush (Producer c)) /\
    Producer_Flush_MaxMessages (Producer_Flush (Producer c)) <> 0 /\
    Producer_Flush_MaxMessages (Producer_Flush (Producer c))
      < Producer_Flush_Messages (Producer_Flush (Producer c)).
Proof.
  rewrite !Validate_result_fatal.
  repeat (split; [reflexivity|]).
  intros c. rewrite Validate_result_fatal, fatal_past_Metadata by reflexivity.
  apply and_iff_compat_l, and_iff_compat_l.
  cbn [group_cases switch].
  destruct (Producer_Partitioner (Producer c)) as [f|]; cbn [is_nil];
    case_checks; to_Z.
  all: try (split; intros ?H; [discriminate | exfalso; tauto || lia]).
  all: decided_iff.
Qed.

(** C7.  The fatal check of [Producer.RequiredAcks].  On the defaults, a
    value below -1 is rejected with the RequiredAcks error and every other
    value is accepted; -2 is rejected; 2 is accepted and reported as
    deprecated, as is every value above 1.  In general the RequiredAcks
    error is returned exactly when the checks before it pass and the value
    is below -1, and the deprecation line is given exactly above 1. *)
Theorem C7_RequiredAcks_fatal_below_minus_one (log : list string) :
  (forall a : RequiredAcks,
     Validate_result (set_Producer_RequiredAcks a NewConfig) log =
     if a <? -1 then Some "Producer.RequiredAcks must be >= -1" else None) /\
  Validate_result (set_Producer_RequiredAcks (-2) NewConfig) log
    = Some "Producer.RequiredAcks must be >= -1" /\
  Validate_result (set_Producer_RequiredAcks 2 NewConfig) log = None /\
  In "Producer.RequiredAcks > 1 is deprecated and will raise an exception with kafka >= 0.8.2.0."
     (Validate_lines (set_Producer_RequiredAcks 2 NewConfig) log) /\
  (forall a : RequiredAcks,
     1 < a ->
     Validate_result (set_Producer_RequiredAcks a NewConfig) log = None /\
     In (advisory_line DeprecatedAcks)
        (Validate_lines (set_Producer_RequiredAcks a NewConfig) log)) /\
  (forall c : Config,
     In (advisory_line DeprecatedAcks) (Validate_lines c log) <->
     1 < Producer_RequiredAcks (Producer c)) /\
  (forall c : Config,
     Validate_result c log = Some "Producer.RequiredAcks must be >= -1" <->
     violated GNet c = false /\
     violated GMetadata c = false /\
     0 < Producer_MaxMessageBytes (Producer c) /\
     Producer_RequiredAcks (Producer c) < -1).
Proof.
  assert (Hdefault : forall a : RequiredAcks,
     fatal (set_Producer_RequiredAcks a NewConfig) =
     if a <? -1 then Some "Producer.RequiredAcks must be >= -1" else None).
  { intros a. rewrite fatal_eq. cbn. destruct (a <? -1); reflexivity. }
  assert (Hline : forall c : Config,
     In (advisory_line DeprecatedAcks) (Validate_lines c log) <->
     1 < Producer_RequiredAcks (Producer c)).
  { intros c. rewrite Validate_lines_advisories, In_advisories.
    cbn [advisory_holds]. apply Z.ltb_lt. }
  split; [intros a; rewrite Validate_result_fatal; apply Hdefault|].
  split; [rewrite Validate_result_fatal; reflexivity|].
  split; [rewrite Validate_result_fatal; reflexivity|].
  split; [apply (Hline (set_Producer_RequiredAcks 2 NewConfig)); reflexivity|].
  split.
  { intros a Ha. split.
    - rewrite Validate_result_fatal, Hdefault.
      destruct (a <? -1) eqn:E; [to_Z; lia | reflexivity].
    - apply Hline. exact Ha. }
  split; [exact Hline|].
  intros c. rewrite Validate_result_fatal, fatal_past_Metadata by reflexivity.
  apply and_iff_compat_l, and_iff_compat_l.
  cbn [group_cases switch].
  case_checks; to_Z; decided_iff.
Qed.

(** ** Further properties of [Validate] and [NewConfig] *)

Lemma fatal_None_accepted (c : Config) :
  fatal c = None <-> accepted c.
Proof.
  rewrite fatal_eq. unfold accepted. cbn [group_cases switch].
  destruct (Producer_Partitioner (Producer c)) as [f|]; cbn [is_nil];
    case_checks; to_Z;
    (split; intros ?H;
     [ try discriminate;
       repeat split; first [assumption | lia | discriminate]
     | try reflexivity; exfalso;
       first [lia | decompose [and] H; congruence] ]).
Qed.

(** X1.  [Validate] returns [nil] exactly for the configurations whose
    fields meet the twenty-five requirements of its fatal checks. *)
Theorem X1_Validate_accepts_exactly (c : Config) (log : list string) :
  Validate_result c log = None <-> accepted c.
Proof. rewrite Validate_result_fatal. apply fatal_None_accepted. Qed.

Lemma switch_first (l : list (bool * ConfigurationError)) (e : ConfigurationError) :
  switch l = Some e <->
  exists before after,
    l = (before ++ (true, e) :: after)%list /\
    forallb (fun p => negb (fst p)) before = true.
Proof.
  induction l as [|[b e'] l IH]; cbn [switch].
  - split; [discriminate|].
    intros (before & after & Heq & _). destruct before; discriminate.
  - destruct b.
    + split.
      * intros [= ->]. exists [], l. split; reflexivity.
      * intros (before & after & Heq & Hall).
        destruct before as [|[b0 e0] before]; cbn in Heq, Hall.
        -- congruence.
        -- injection Heq as Hb _ _. subst b0. discriminate.
    + rewrite IH. split.
      * intros (before & after & Heq & Hall).
        exists ((false, e') :: before), after. subst l. split; [reflexivity|].
        exact Hall.
      * intros (before & after & Heq & Hall).
        destruct before as [|[b0 e0] before]; cbn in Heq, Hall.
        -- discriminate.
        -- injection Heq as _ _ Hl. exists before, after. split; [assumption|].
           destruct b0; [discriminate | exact Hall].
Qed.

Lemma NoDup_distinct (l : list string) :
  distinct l = true -> NoDup l.
Proof.
  induction l as [|x r IH]; cbn [distinct]; intros H; constructor.
  - apply andb_prop in H. destruct H as [H _].
    intros Hin. apply In_error_in in Hin. rewrite Hin in H. discriminate.
  - apply IH. apply andb_prop in H. tauto.
Qed.

(** X2.  The error [Validate] returns is that of the first failing check in
    the order of the body: every check before it passes.  The body has
    twenty-five checks and no two of them share an error message, so the
    message tells which check failed. *)
Theorem X2_error_is_first_failing_check
    (c : Config) (log : list string) (e : ConfigurationError) :
  (Validate_result c log = Some e <->
   exists before after,
     all_cases c = (before ++ (true, e) :: after)%list /\
     forallb (fun p => negb (fst p)) before = true) /\
  length (all_cases c) = 25%nat /\
  NoDup (map snd (all_cases c)).
Proof.
  rewrite Validate_result_fatal. unfold fatal. fold (all_cases c).
  split; [apply switch_first|]. split; [reflexivity|].
  apply NoDup_distinct. reflexivity.
Qed.



Lemma Validate_times_world (n : nat) (w : World) :
  Validate_times n w =
  {| w_config := w_config w;
     w_Logger := (w_Logger w ++ concat (repeat (advisories (w_config w)) n))%list |}.
Proof.
  revert w. induction n as [|n IH]; intros w; cbn [Validate_times repeat concat].
  - rewrite app_nil_r. destruct w; reflexivity.
  - rewrite IH, Validate_world. cbn [snd w_config w_Logger].
    rewrite <- app_assoc. reflexivity.
Qed.

(** X4.  Validating again and again: after [n] runs on the same receiver the
    configuration is as it was, the logger holds its old lines followed by
    the lines of one run repeated [n] times (a run does not remember that
    an advisory was already given), and one more run returns what the
    first run returned. *)
Theorem X4_repeated_runs (n : nat) (w : World) :
  w_config (Validate_times n w) = w_config w /\
  w_Logger (Validate_times n w) =
    (w_Logger w
       ++ concat (repeat (Validate_lines (w_config w) (w_Logger w)) n))%list /\
  fst (Validate (Validate_times n w)) = fst (Validate w).
Proof.
  rewrite Validate_times_world, Validate_lines_advisories, !Validate_world.
  cbn [fst w_config w_Logger]. repeat split.
Qed.

Lemma whole_milliseconds (d : time.Duration) :
  Z.rem d time.Millisecond = 0 ->
  d = Z.quot d time.Millisecond * time.Millisecond.
Proof.
  intros H. pose proof (Z.quot_rem' d time.Millisecond) as E.
  rewrite H in E. lia.
Qed.

Lemma at_least_one_millisecond (d : time.Duration) :
  1 * time.Millisecond <= d -> 1 <= Z.quot d time.Millisecond.
Proof.
  intros H. change (1 * time.Millisecond) with 1000000 in H.
  change time.Millisecond with 1000000.
  rewrite Z.quot_div_nonneg by lia.
  apply Z.div_le_lower_bound; lia.
Qed.

Lemma not_logged (a : Advisory) (c : Config) (log : list string) :
  ~ In (advisory_line a) (Validate_lines c log) -> advisory_holds a c = false.
Proof.
  intros H. destruct (advisory_holds a c) eqn:E; [|reflexivity].
  exfalso. apply H. rewrite Validate_lines_advisories. apply In_advisories, E.
Qed.

(** X5.  Durations of an accepted configuration, counted in whole
    milliseconds as the broker gets them.  [Consumer.MaxWaitTime] is at
    least one whole millisecond, so its truncation is never 0.  When the
    run gave no precision advisory for [Consumer.MaxWaitTime], the field is
    a whole number of milliseconds; when it gave none for
    [Producer.Timeout], that field is a whole number of milliseconds and at
    least one. *)
Theorem X5_accepted_durations_in_milliseconds (c : Config) (log : list string) :
  Validate_result c log = None ->
  1 <= Z.quot (Consumer_MaxWaitTime (Consumer c)) time.Millisecond /\
  (~ In (advisory_line MaxWaitTimeSubMillisecond) (Validate_lines c log) ->
   Consumer_MaxWaitTime (Consumer c)
     = Z.quot (Consumer_MaxWaitTime (Consumer c)) time.Millisecond
       * time.Millisecond) /\
  (~ In (advisory_line TimeoutSubMillisecond) (Validate_lines c log) ->
   Producer_Timeout (Producer c)
     = Z.quot (Producer_Timeout (Producer c)) time.Millisecond
       * time.Millisecond /\
   1 <= Z.quot (Producer_Timeout (Producer c)) time.Millisecond).
Proof.
  rewrite Validate_result_fatal, fatal_None_accepted. unfold accepted.
  intros H. decompose [and] H. clear H.
  split; [apply at_least_one_millisecond; assumption|].
  split.
  - intros Hno. apply not_logged in Hno. cbn [advisory_holds] in Hno.
    apply negb_false_iff, Z.eqb_eq in Hno. apply whole_milliseconds, Hno.
  - intros Hno. apply not_logged in Hno. cbn [advisory_holds] in Hno.
    apply negb_false_iff, Z.eqb_eq in Hno.
    pose proof (whole_milliseconds _ Hno) as Hwhole.
    split; [exact Hwhole|].
    change time.Millisecond with 1000000 in *.
    destruct (Z.le_gt_cases 1 (Z.quot (Producer_Timeout (Producer c)) 1000000))
      as [|Hlt]; [assumption|].
    pose proof (Z.quot_pos (Producer_Timeout (Producer c)) 1000000) as Hpos.
    lia.
Qed.

(** X6.  Every fatal check on a single field is a lower bound: a
    configuration that [Validate] accepts is still accepted after any of
    its numeric fields is raised, as long as [Producer.Flush.Messages] and
    [Producer.Flush.MaxMessages], which the cross-field rule ties together,
    are kept and the partitioner stays set. *)
Theorem X6_raising_fields_keeps_acceptance
    (c c' : Config) (log log' : list string) :
  raised c c' ->
  Validate_result c log = None ->
  Validate_result c' log' = None.
Proof.
  rewrite !Validate_result_fatal, !fatal_None_accepted.
  unfold raised, accepted. intros Hr Ha.
  decompose [and] Hr. decompose [and] Ha. clear Hr Ha.
  repeat split; first [lia | auto].
Qed.

Lemma fatal_Some_case (c : Config) (e : ConfigurationError) :
  fatal c = Some e -> In (true, e) (all_cases c).
Proof.
  unfold fatal. fold (all_cases c). intros H.
  apply switch_first in H. destruct H as (before & after & -> & _).
  apply in_or_app. right. left. reflexivity.
Qed.

Ltac failed_case H :=
  apply fatal_Some_case in H; unfold all_cases, all_groups in H;
  cbn [flat_map group_cases app] in H;
  repeat (destruct H as [H|H];
          [ first [discriminate H | injection H as H] | ]);
  try contradiction.

(** X7.  Advisories and fatal errors about the same field, in one run.  A
    run that returns the [Consumer.MaxWaitTime] error has logged the
    very-low advisory.  A run that logged the deprecated-acks advisory does
    not return the [Producer.RequiredAcks] error.  With a positive ceiling,
    a run that logged the ceiling advisory for [Producer.MaxMessageBytes]
    does not return the error of that field, and a run that logged the one
    for [Producer.Flush.Bytes] does not return the error of that field. *)
Theorem X7_advisories_and_errors_of_a_field (c : Config) (log : list string) :
  0 < forceFlushThreshold ->
  (Validate_result c log = Some "Consumer.MaxWaitTime must be > 1ms" ->
   In (advisory_line MaxWaitTimeVeryLow) (Validate_lines c log)) /\
  (In (advisory_line DeprecatedAcks) (Validate_lines c log) ->
   Validate_result c log <> Some "Producer.RequiredAcks must be >= -1") /\
  (In (advisory_line MaxMessageBytesAtCeiling) (Validate_lines c log) ->
   Validate_result c log <> Some "Producer.MaxMessageBytes must be > 0") /\
  (In (advisory_line FlushBytesAtCeiling) (Validate_lines c log) ->
   Validate_result c log <> Some "Producer.Flush.Bytes must be >= 0").
Proof.
  intros Hceiling.
  rewrite Validate_result_fatal, Validate_lines_advisories, !In_advisories.
  cbn [advisory_holds].
  split; [|split; [|split]].
  - intros H. failed_case H. to_Z. apply Z.ltb_lt.
    change (1 * time.Millisecond) with 1000000 in *.
    change (100 * time.Millisecond) with 100000000. lia.
  - intros Hadv H. failed_case H. to_Z. lia.
  - intros Hadv H. failed_case H. to_Z. lia.
  - intros Hadv H. failed_case H. to_Z. lia.
Qed.

(** X8.  The defaults are quiet exactly under a ceiling above their
    [Producer.MaxMessageBytes]: a run of [Validate] on the value of
    [NewConfig] logs nothing if and only if the ceiling is above 1000000,
    and otherwise it logs the ceiling advisory for that field. *)
Theorem X8_defaults_log_nothing_below_ceiling (log : list string) :
  (Validate_lines NewConfig log = [] <-> 1000000 < forceFlushThreshold) /\
  (In (advisory_line MaxMessageBytesAtCeiling) (Validate_lines NewConfig log) <->
   forceFlushThreshold <= 1000000).
Proof.
  rewrite Validate_lines_advisories, In_advisories. split.
  - unfold advisories, triggered, all_advisories. cbn [filter].
    change (advisory_holds DeprecatedAcks NewConfig) with false.
    change (advisory_holds TimeoutSubMillisecond NewConfig) with false.
    change (advisory_holds MaxWaitTimeVeryLow NewConfig) with false.
    change (advisory_holds MaxWaitTimeSubMillisecond NewConfig) with false.
    change (advisory_holds DefaultClientID NewConfig) with false.
    change (advisory_holds MaxMessageBytesAtCeiling NewConfig)
      with (forceFlushThreshold <=? 1000000).
    change (advisory_holds FlushBytesAtCeiling NewConfig)
      with (forceFlushThreshold <=? 0).
    cbv iota.
    destruct (forceFlushThreshold <=? 1000000) eqn:E1;
      destruct (forceFlushThreshold <=? 0) eqn:E2; to_Z;
      cbn [map]; split; intros H; try discriminate; try lia; reflexivity.
  - change (advisory_holds MaxMessageBytesAtCeiling NewConfig)
      with (forceFlushThreshold <=? 1000000).
    apply Z.leb_le.
Qed.

End Sarama.

(** ** The properties at concrete configurations

    The partitioner type is instantiated with [unit] and the ceiling with
    [example_ceiling]. *)


(** The configuration on which the order claimed for the Consumer checks
    fails: it passes the Net, Metadata and Producer checks, its
    Retry.Backoff is negative and its Fetch.Min is zero, and the error
    returned is the Fetch.Min one, not the Retry.Backoff one. *)
Lemma C5_counterexample :
  wf_Config unit (Consumer_order_Config unit tt) = true /\
  violated unit GNet (Consumer_order_Config unit tt) = false /\
  violated unit GMetadata (Consumer_order_Config unit tt) = false /\
  violated unit GProducer (Consumer_order_Config unit tt) = false /\
  Consumer_Retry_Backoff
    (Consumer_Retry (Consumer unit (Consumer_order_Config unit tt))) < 0 /\
  Consumer_Fetch_Min
    (Consumer_Fetch (Consumer unit (Consumer_order_Config unit tt))) <= 0 /\
  Validate_result unit example_ceiling (Consumer_order_Config unit tt) []
    = Some "Consumer.Fetch.Min must be > 0" /\
  Validate_result unit example_ceiling (Consumer_order_Config unit tt) []
    <> Some "Consumer.Retry.Backoff must be >= 0".
Proof.
  repeat (split; [vm_compute; reflexivity|]).
  split; [vm_compute; discriminate|].
  split; [vm_compute; reflexivity|].
  vm_compute. discriminate.
Qed.

(** C5 at that configuration. *)
Lemma C5_witness :
  Validate_result unit example_ceiling (Consumer_order_Config unit tt) []
    = Some "Consumer.Fetch.Min must be > 0".
Proof.
  refine (proj1 (C5_Consumer_checks_in_switch_order unit example_ceiling
                   (Consumer_order_Config unit tt) [] _ _ _) _ _).
  - reflexivity.
  - reflexivity.
  - reflexivity.
  - vm_compute. reflexivity.
  - vm_compute. discriminate.
Defined.

(** C7 at the defaults with RequiredAcks 3. *)
Lemma C7_witness :
  Validate_result unit example_ceiling
    (set_Producer_RequiredAcks unit 3 (NewConfig unit tt)) [] = None /\
  In (advisory_line DeprecatedAcks)
     (Validate_lines unit example_ceiling
        (set_Producer_RequiredAcks unit 3 (NewConfig unit tt)) []).
Proof.
  refine (proj1 (proj2 (proj2 (proj2 (proj2
            (C7_RequiredAcks_fatal_below_minus_one unit tt example_ceiling []))))) 3 _).
  vm_compute. reflexivity.
Defined.

(** C8 at a configuration that triggers the seven advisories. *)
Lemma C8_witness :
  wf_Config unit (all_advisories_Config unit tt example_ceiling) = true /\
  Validate_result unit example_ceiling
    (all_advisories_Config unit tt example_ceiling) [] = None /\
  Validate_lines unit example_ceiling
    (all_advisories_Config unit tt example_ceiling) []
    = map advisory_line all_advisories.
Proof.
  split; [vm_compute; reflexivity|].
  refine (proj2 (proj2 (proj2 (proj2
            (C8_advisories_do_not_affect_outcome unit example_ceiling
               (all_advisories_Config unit tt example_ceiling) [])))) _ _).
  - intros g. destruct g; vm_compute; reflexivity.
  - intros a. destruct a; vm_compute; reflexivity.
Defined.

(** C10 at the defaults and the defaults with the five fields changed. *)
Lemma C10_witness :
  unchecked_changed_Config unit tt <> NewConfig unit tt /\
  Validate_result unit example_ceiling (NewConfig unit tt) []
    = Validate_result unit example_ceiling (unchecked_changed_Config unit tt) [].
Proof.
  split.
  { intros H. apply (f_equal (ClientID unit)) in H. vm_compute in H.
    discriminate H. }
  apply (C10_unchecked_fields_do_not_affect_result unit example_ceiling
           (NewConfig unit tt) (unchecked_changed_Config unit tt) [] []).
  unfold differ_only_in_unchecked.
  do 11 (split; [vm_compute; reflexivity|]).
  vm_compute. reflexivity.
Defined.

(** X5 at the defaults: 250ms and 10s are whole numbers of milliseconds. *)
Lemma X5_witness :
  1 <= Z.quot (Consumer_MaxWaitTime (Consumer unit (NewConfig unit tt)))
         time.Millisecond /\
  (~ In (advisory_line MaxWaitTimeSubMillisecond)
        (Validate_lines unit example_ceiling (NewConfig unit tt) []) ->
   Consumer_MaxWaitTime (Consumer unit (NewConfig unit tt))
     = Z.quot (Consumer_MaxWaitTime (Consumer unit (NewConfig unit tt)))
         time.Millisecond * time.Millisecond) /\
  (~ In (advisory_line TimeoutSubMillisecond)
        (Validate_lines unit example_ceiling (NewConfig unit tt) []) ->
   Producer_Timeout unit (Producer unit (NewConfig unit tt))
     = Z.quot (Producer_Timeout unit (Producer unit (NewConfig unit tt)))
         time.Millisecond * time.Millisecond /\
   1 <= Z.quot (Producer_Timeout unit (Producer unit (NewConfig unit tt)))
          time.Millisecond).
Proof.
  apply (X5_accepted_durations_in_milliseconds unit example_ceiling
           (NewConfig unit tt) []).
  vm_compute. reflexivity.
Defined.

(** X6 from the defaults to the defaults with four fields raised. *)
Lemma X6_witness :
  Validate_result unit example_ceiling (raised_Config unit tt) [] = None.
Proof.
  apply (X6_raising_fields_keeps_acceptance unit example_ceiling
           (NewConfig unit tt) (raised_Config unit tt) [] []).
  - unfold raised.
    do 23 (split;
           [first [ vm_compute; reflexivity
                  | vm_compute; discriminate
                  | intros _; discriminate ] |]).
    vm_compute. discriminate.
  - vm_compute. reflexivity.
Defined.

(** X7 at the defaults with a [Consumer.MaxWaitTime] of 0. *)
Lemma X7_witness :
  In (advisory_line MaxWaitTimeVeryLow)
     (Validate_lines unit example_ceiling
        (set_Consumer_MaxWaitTime unit 0 (NewConfig unit tt)) []).
Proof.
  refine (proj1 (X7_advisories_and_errors_of_a_field unit example_ceiling
                   (set_Consumer_MaxWaitTime unit 0 (NewConfig unit tt)) [] _) _).
  - vm_compute. reflexivity.
  - vm_compute. reflexivity.
Defined.

(** ** The ceiling and the result *)

(** X9.  The request-size ceiling never decides the result: under any two
    values of [forceFlushThreshold()], and whatever the logger holds,
    [Validate] returns the same result on a configuration.  A
    [Producer.MaxMessageBytes] or [Producer.Flush.Bytes] at or above the
    ceiling is reported to the logger and is not an error. *)
Theorem X9_ceiling_never_changes_result
    (PartitionerConstructor : Type) (ceiling ceiling' : Z)
    (c : Config PartitionerConstructor) (log log' : list string) :
  Validate_result PartitionerConstructor ceiling c log
    = Validate_result PartitionerConstructor ceiling' c log'.
Proof. rewrite !Validate_result_fatal. reflexivity. Qed.
